(** * kaggle.common.config: the [Config] settings store

    A shallow embedding of [src/kaggle/common/config.py].  A Python [str] is
    a sequence of Unicode code points, an instance is its attribute
    dictionary ([self.__dict__], insertion ordered), and every method is a
    computation over that dictionary that either returns or raises. *)

From Stdlib Require Import ZArith NArith Ascii String DecimalString.
From stdpp Require Import base decidable option list gmap.

Local Open Scope Z_scope.
Set Warnings "-register-all".

(** ** Strings *)

Definition char := N.
Definition pystr := list char.

(** A literal of the source, written as a Rocq string of ASCII characters. *)
Definition py (s : string) : pystr := map N_of_ascii (list_ascii_of_string s).

Definition dash : char := 45%N.

(** The complement of the character class of [_clean_name]: the regular
    expression is [[^a-zA-Z0-9_.:/\\]+] once Python has read the literal. *)
Definition in_class (c : char) : bool :=
  ((97 <=? c) && (c <=? 122) || (65 <=? c) && (c <=? 90) ||
   (48 <=? c) && (c <=? 57) ||
   (c =? 95) || (c =? 46) || (c =? 58) || (c =? 47) || (c =? 92))%N.

Definition forbidden (c : char) : bool := negb (in_class c).

(** [re.findall] for a pattern [[...]+] without groups: the maximal runs of
    characters of the class, from left to right.  [run] holds the run being
    read, last character first. *)
Definition close_run (run : pystr) : list pystr :=
  match run with
  | [] => []
  | _ => [rev run]
  end.

(** A run is being read. *)
Definition pending (run : pystr) : bool :=
  match run with
  | [] => false
  | _ => true
  end.

Fixpoint findall_from (cls : char -> bool) (run : pystr) (s : pystr) : list pystr :=
  match s with
  | [] => close_run run
  | c :: rest =>
      if cls c then findall_from cls (c :: run) rest
      else close_run run ++ findall_from cls [] rest
  end.

Definition findall (cls : char -> bool) (s : pystr) : list pystr :=
  findall_from cls [] s.

(** [while result.startswith("-"): result = result[1:]] *)
Fixpoint strip_dashes (result : pystr) : pystr :=
  match result with
  | c :: rest => if (c =? dash)%N then strip_dashes rest else result
  | [] => []
  end.

Definition _clean_name (name : pystr) : pystr :=
  let result := strip_dashes name in
  if (0 <? length (findall forbidden result))%nat then [] else result.

(** [str.strip()]: the characters Python counts as white space. *)
Definition isspace (c : char) : bool :=
  ((9 <=? c) && (c <=? 13) || (28 <=? c) && (c <=? 32) ||
   (c =? 133) || (c =? 160) || (c =? 5760) ||
   (8192 <=? c) && (c <=? 8202) ||
   (c =? 8232) || (c =? 8233) || (c =? 8239) || (c =? 8287) || (c =? 12288))%N.

Fixpoint lstrip (s : pystr) : pystr :=
  match s with
  | c :: rest => if isspace c then lstrip rest else s
  | [] => []
  end.

Definition rstrip (s : pystr) : pystr := rev (lstrip (rev s)).

Definition strip (s : pystr) : pystr := rstrip (lstrip s).

(** A character that neither [strip] nor [_clean_name] touches. *)
Definition tame (c : char) : bool :=
  in_class c && negb (isspace c) && negb (c =? dash)%N.

(** The sanitizer in the words of the specification.  The allowed
    characters are ASCII letters, ASCII digits and [_ . : / \]; [out] is a
    correct result for [s] when [s] is some dashes followed by [r], [r] does
    not begin with a dash, and [out] is [r] if all of [r] is allowed and the
    empty string if some character of [r] is not. *)
Definition allowed_chars : pystr :=
  py "abcdefghijklmnopqrstuvwxyzABCDEFGHIJKLMNOPQRSTUVWXYZ0123456789_.:/\".

Definition sanitize_spec (s out : pystr) : Prop :=
  exists (k : nat) (r : pystr),
    s = replicate k dash ++ r /\
    (forall r', r <> dash :: r') /\
    ((forall c, c ∈ r -> c ∈ allowed_chars) -> out = r) /\
    ((exists c, c ∈ r /\ c ∉ allowed_chars) -> out = []).

(** ** Values and dictionaries

    The store never inspects a value beyond asking whether it is a [dict]
    or a [str], so values are the trees that [json.load] builds, together
    with [VAttr n]: what the class supplies under the name [n] when the
    instance has no entry of its own (a bound method, the docstring, the
    class itself for [__class__]).  Floating point numbers are left out.
    A dictionary keeps its items in insertion order; its keys are compared
    as Python compares them, so [True] and [1] are the same key. *)

Inductive key :=
  | KStr (s : pystr)
  | KInt (z : Z)
  | KBool (b : bool)
  | KNone.

Inductive value :=
  | VNone
  | VBool (b : bool)
  | VInt (z : Z)
  | VStr (s : pystr)
  | VList (items : list value)
  | VDict (items : list (key * value))
  | VAttr (name : pystr).

Definition pydict := list (key * value).

#[global] Instance key_eq_dec : EqDecision key.
Proof. solve_decision. Defined.

Definition key_norm (k : key) : key :=
  match k with
  | KBool b => KInt (if b then 1 else 0)
  | _ => k
  end.

Definition key_eqb (a b : key) : bool := bool_decide (key_norm a = key_norm b).

Fixpoint dict_get (k : key) (d : pydict) : option value :=
  match d with
  | [] => None
  | (k', v) :: rest => if key_eqb k' k then Some v else dict_get k rest
  end.

(** [d[k] = v]: an existing key keeps its place, a new one goes last. *)
Fixpoint dict_set (k : key) (v : value) (d : pydict) : pydict :=
  match d with
  | [] => [(k, v)]
  | (k', v') :: rest =>
      if key_eqb k' k then (k', v) :: rest else (k', v') :: dict_set k v rest
  end.

Definition dict_keys (d : pydict) : list key := map fst d.

(** [str(key)] *)
Definition str (k : key) : pystr :=
  match k with
  | KStr s => s
  | KInt z => py (NilZero.string_of_int (Z.to_int z))
  | KBool true => py "True"
  | KBool false => py "False"
  | KNone => py "None"
  end.

(** ** Computations on an instance *)

(** [IOError] stands for whatever [open] and [json.load] raise. *)
Inductive exn := TypeError | AttributeError | KeyError | IOError.

Inductive outcome (A : Type) :=
  | Return (a : A) (self : pydict)
  | Raise (e : exn) (self : pydict).
Arguments Return {A} a self.
Arguments Raise {A} e self.

Definition final {A} (o : outcome A) : pydict :=
  match o with
  | Return _ self => self
  | Raise _ self => self
  end.

Definition M (A : Type) := pydict -> outcome A.

Definition ret {A} (a : A) : M A := fun self => Return a self.

Definition raise {A} (e : exn) : M A := fun self => Raise e self.

Definition bind {A B} (m : M A) (k : A -> M B) : M B := fun self =>
  match m self with
  | Return a self' => k a self'
  | Raise e self' => Raise e self'
  end.

Notation "x <- m ;; k" := (bind m (fun x => k))
  (at level 62, m at next level, right associativity).
Notation "m ;;; k" := (bind m (fun _ => k))
  (at level 62, right associativity).

(** [try: body / except Exception as e: handler] *)
Definition try_except {A} (body : M A) (handler : exn -> M A) : M A := fun self =>
  match body self with
  | Return a self' => Return a self'
  | Raise e self' => handler e self'
  end.

Fixpoint for_each {A} (l : list A) (body : A -> M unit) : M unit :=
  match l with
  | [] => ret tt
  | x :: rest => body x ;;; for_each rest body
  end.

(** ** Attribute access

    [Config] is a plain class, so an attribute lives in the instance
    dictionary unless the class holds a data descriptor of that name.  There
    are three: [__class__], [__dict__] and [__weakref__].  Every other name
    the class knows (its methods, what [object] provides) is found on the
    class when the instance has no entry for it.  The names of [object] are
    those of CPython 3.11; each begins and ends with two underscores. *)

Inductive descriptor := DClass | DDict | DWeakref.

Definition data_descriptor (n : pystr) : option descriptor :=
  if bool_decide (n = py "__class__") then Some DClass
  else if bool_decide (n = py "__dict__") then Some DDict
  else if bool_decide (n = py "__weakref__") then Some DWeakref
  else None.

Definition config_attrs : list pystr :=
  map py ["__module__"; "__doc__"; "__init__"; "_clean_name";
          "update_from_dict"; "load_json"; "set_param"; "get_param";
          "has_param"; "get_all_params"; "__dict__"; "__weakref__"]%string.

Definition object_attrs : list pystr :=
  map py ["__class__"; "__delattr__"; "__dir__"; "__doc__"; "__eq__";
          "__format__"; "__ge__"; "__getattribute__"; "__getstate__";
          "__gt__"; "__hash__"; "__init__"; "__init_subclass__"; "__le__";
          "__lt__"; "__ne__"; "__new__"; "__reduce__"; "__reduce_ex__";
          "__repr__"; "__setattr__"; "__sizeof__"; "__str__";
          "__subclasshook__"]%string.

Definition class_attr (n : pystr) : bool :=
  bool_decide (n ∈ config_attrs ++ object_attrs).

Definition getattr (name : value) : M value := fun self =>
  match name with
  | VStr n =>
      match data_descriptor n with
      | Some DDict => Return (VDict self) self
      | Some DClass => Return (VAttr n) self
      | Some DWeakref => Return VNone self
      | None =>
          match dict_get (KStr n) self with
          | Some v => Return v self
          | None =>
              if class_attr n then Return (VAttr n) self
              else Raise AttributeError self
          end
      end
  | _ => Raise TypeError self
  end.

(** [hasattr] is [getattr] with [AttributeError] turned into [False]. *)
Definition hasattr (name : value) : M bool := fun self =>
  match getattr name self with
  | Return _ self' => Return true self'
  | Raise AttributeError self' => Return false self'
  | Raise e self' => Raise e self'
  end.

Definition is_class (v : value) : bool :=
  match v with
  | VAttr n => bool_decide (n = py "__class__")
  | _ => false
  end.

Definition setattr (name v : value) : M unit := fun self =>
  match name with
  | VStr n =>
      match data_descriptor n with
      | Some DClass => if is_class v then Return tt self else Raise TypeError self
      | Some DDict =>
          match v with
          | VDict d => Return tt d
          | _ => Raise TypeError self
          end
      | Some DWeakref => Raise AttributeError self
      | None => Return tt (dict_set (KStr n) v self)
      end
  | _ => Raise TypeError self
  end.

(** [dict_data[key]] *)
Definition getitem (d : pydict) (k : key) : M value :=
  match dict_get k d with
  | Some v => ret v
  | None => raise KeyError
  end.

(** [print(self.log, ...)]: what is printed is not kept, but [self.log] is
    read. *)
Definition print_log : M unit := getattr (VStr (py "log")) ;;; ret tt.

Definition is_str (v : value) : bool :=
  match v with
  | VStr _ => true
  | _ => false
  end.

Definition is_empty (s : pystr) : bool :=
  match s with
  | [] => true
  | _ => false
  end.

(** ** The methods of [Config] *)

Inductive file :=
  | NoFile
  | Unreadable
  | Json (data : value).

Section Config.

(** What [os.path.isfile], [open] and [json.load] find under each path:
    nothing (or no regular file), a file that cannot be opened, decoded
    or parsed, or a file holding a JSON document. *)
Variable fs : pystr -> file.

Definition isfile (path : pystr) : bool :=
  match fs path with
  | NoFile => false
  | _ => true
  end.

Definition json_load (path : pystr) : M value :=
  match fs path with
  | Json data => ret data
  | _ => raise IOError
  end.

(** The loop has no [try]: what [setattr] raises leaves the method. *)
Definition update_from_dict (dict_data : value) : M bool :=
  match dict_data with
  | VDict d =>
      for_each (dict_keys d) (fun key =>
        let name := _clean_name (strip (str key)) in
        if is_empty name then ret tt
        else value <- getitem d key ;; setattr (VStr name) value) ;;;
      ret true
  | _ => ret false
  end.

(** The guard asks for a [str] that is not empty and for which
    [os.path.isfile] holds; the handler returns [False] after printing;
    the merge comes after the [try] statement, its result is not used, and
    the method ends with [return True]. *)
Definition load_json (filename : value) : M bool :=
  match filename with
  | VStr path =>
      if negb (is_empty path) && isfile path then
        r <- try_except (data <- json_load path ;; ret (inl data))
                        (fun e => print_log ;;; ret (inr false)) ;;
        match r with
        | inl data => update_from_dict data ;;; ret true
        | inr b => ret b
        end
      else ret false
  | _ => ret false
  end.

(** [set_param] and [get_param] pass [name] to [setattr] as it comes. *)
Definition set_param (name val : value) : M unit :=
  try_except (setattr name val) (fun e => print_log).


Definition has_param (name : value) : M bool := hasattr name.

(** [self.__dict__.copy()] *)
Definition get_all_params : M value := fun self => Return (VDict self) self.

(** [self.log] is the last statement of [__init__]. *)
Definition __init__ (default json_file : value) : M unit :=
  match default with
  | VDict _ => update_from_dict default ;;; ret tt
  | _ => ret tt
  end ;;;
  match json_file with
  | VStr _ => load_json json_file ;;; ret tt
  | _ => ret tt
  end ;;;
  setattr (VStr (py "log")) (VStr (py "[Config] ")).

(** [Config(default, json_file)]: a new instance, then [__init__]. *)
Definition Config (default json_file : value) : outcome unit :=
  __init__ default json_file [].

End Config.

(** ** What a merge does, read off the loop

    [attr_name key] is the name under which the loop of [update_from_dict]
    stores the value of [key]; [assign] is one turn of the loop when
    [setattr] meets no data descriptor, [merge] the whole loop. *)

Definition attr_name (k : key) : pystr := _clean_name (strip (str k)).

Definition assign (d : pydict) (self : pydict) (k : key) : pydict :=
  let name := attr_name k in
  if is_empty name then self
  else match dict_get k d with
       | Some v => dict_set (KStr name) v self
       | None => self
       end.

Definition merge (d : pydict) (self : pydict) : pydict :=
  foldl (assign d) self (dict_keys d).

(** No key of [d] is stored under [__class__], [__dict__] or
    [__weakref__]. *)
Definition plain (d : pydict) : bool :=
  forallb (fun k => bool_decide (data_descriptor (attr_name k) = None))
          (dict_keys d).




Definition plain_value (v : value) : bool :=
  match v with
  | VDict d => plain d
  | _ => true
  end.

Definition plain_file (f : file) : bool :=
  match f with
  | Json data => plain_value data
  | _ => true
  end.



Definition plain_path (fs : pystr -> file) (path : value) : bool :=
  match path with
  | VStr p => plain_file (fs p)
  | _ => true
  end.


(** ** Example stores and files *)


Definition log_prefix : value := VStr (py "[Config] ").

(** The dictionary of [Config()]. *)
Definition fresh_store : pydict := [(KStr (py "log"), log_prefix)].

Definition no_files : pystr -> file := fun _ => NoFile.

Definition example_files (path : pystr) : file :=
  if bool_decide (path = py "broken.json") then Unreadable
  else if bool_decide (path = py "list.json") then Json (VList [VInt 1; VInt 2; VInt 3])
  else if bool_decide (path = py "a2.json") then Json (VDict [(KStr (py "a"), VInt 2)])
  else if bool_decide (path = py "log2.json") then Json (VDict [(KStr (py "log"), VInt 2)])
  else if bool_decide (path = py "class.json") then Json (VDict [(KStr (py "__class__"), VInt 1)])
  else NoFile.

(** ** Object identity

    [get_all_params] hands out a new dictionary object.  To tell a copy
    from an alias, dictionaries are placed in a heap: an instance is known
    by the location of its [__dict__], and the caller changes the mapping
    it was given through the location it was given. *)

Abbreviation loc := positive.

Abbreviation heap := (gmap loc pydict).

Inductive mutation :=
  | SetItem (k : key) (v : value)
  | DelItem (k : key)
  | Clear.

Definition dict_del (k : key) (d : pydict) : pydict :=
  filter (fun kv => key_eqb kv.1 k = false) d.

Definition mutate (m : mutation) (d : pydict) : pydict :=
  match m with
  | SetItem k v => dict_set k v d
  | DelItem k => dict_del k d
  | Clear => []
  end.

Definition mutate_at (l : loc) (h : heap) (m : mutation) : heap :=
  alter (mutate m) l h.

(** A method call on the instance whose [__dict__] is at [self]. *)
Definition call {A} (self : loc) (m : M A) (h : heap) : option (outcome A * heap) :=
  d ← h !! self;
  let o := m d in
  Some (o, <[self := final o]> h).


Example clean_flag : _clean_name (py "--data.path") = py "data.path".
Proof. reflexivity. Qed.

Example clean_space : _clean_name (py "bad key") = [].
Proof. reflexivity. Qed.

Lemma close_run_pending run : (0 <? length (close_run run))%nat = pending run.
Proof. by destruct run. Qed.

Lemma findall_from_nonempty cls run s :
  (0 <? length (findall_from cls run s))%nat = pending run || existsb cls s.
Proof.
  revert run. induction s as [|c rest IH]; intros run; simpl.
  - by rewrite close_run_pending, orb_false_r.
  - destruct (cls c) eqn:Hc; simpl.
    + rewrite IH. simpl. by rewrite orb_true_r.
    + rewrite length_app. destruct run as [|r run]; [apply IH|done].
Qed.

Lemma findall_nonempty cls s :
  (0 <? length (findall cls s))%nat = existsb cls s.
Proof. unfold findall. by rewrite findall_from_nonempty. Qed.

Lemma existsb_forbidden s : existsb forbidden s = negb (forallb in_class s).
Proof.
  induction s as [|c s IH]; simpl; [done|].
  rewrite IH. unfold forbidden. by destruct (in_class c), (forallb in_class s).
Qed.

Lemma strip_dashes_split s :
  exists k, s = replicate k dash ++ strip_dashes s.
Proof.
  induction s as [|c s [k IH]]; simpl.
  - by exists 0%nat.
  - destruct (N.eqb_spec c dash) as [->|Hne].
    + exists (S k). simpl. by rewrite <- IH.
    + by exists 0%nat.
Qed.

Lemma strip_dashes_no_dash s r' : strip_dashes s <> dash :: r'.
Proof.
  induction s as [|c s IH]; simpl; [done|].
  destruct (N.eqb_spec c dash) as [->|Hne]; [done|congruence].
Qed.

Lemma in_class_allowed c : in_class c = true <-> c ∈ allowed_chars.
Proof.
  split.
  - intros Hc.
    assert (Hlt : (c < 123)%N).
    { unfold in_class in Hc.
      rewrite !orb_true_iff, !andb_true_iff, !N.leb_le, !N.eqb_eq in Hc. lia. }
    assert (Hall : forallb (fun n => implb (in_class n) (bool_decide (n ∈ allowed_chars)))
                     (map N.of_nat (seq 0 123)) = true) by (vm_compute; reflexivity).
    rewrite forallb_forall in Hall.
    assert (Hin : In c (map N.of_nat (seq 0 123))).
    { apply in_map_iff. exists (N.to_nat c). split; [lia|]. apply in_seq. lia. }
    specialize (Hall c Hin). rewrite Hc in Hall. simpl in Hall.
    by apply bool_decide_eq_true in Hall.
  - intros Hin.
    assert (Hall : Forall (fun c => in_class c = true) allowed_chars)
      by (unfold allowed_chars; vm_compute; repeat constructor).
    rewrite Forall_forall in Hall. by apply Hall.
Qed.

Lemma strip_dashes_idem s : strip_dashes (strip_dashes s) = strip_dashes s.
Proof.
  induction s as [|c s IH]; simpl; [done|].
  destruct (N.eqb_spec c dash) as [->|Hne]; [done|].
  simpl. by destruct (N.eqb_spec c dash).
Qed.

Lemma clean_name_idem s : _clean_name (_clean_name s) = _clean_name s.
Proof.
  unfold _clean_name.
  destruct (0 <? length (findall forbidden (strip_dashes s)))%nat eqn:Hbad; [done|].
  by rewrite strip_dashes_idem, Hbad.
Qed.

(** ** Dictionaries *)

Ltac key_cases :=
  unfold key_eqb in *; repeat case_bool_decide; try congruence; try done.

Lemma key_eqb_refl k : key_eqb k k = true.
Proof. key_cases. Qed.



Lemma dict_get_keys k d : k ∈ dict_keys d -> is_Some (dict_get k d).
Proof.
  induction d as [|[k0 v0] d IH]; simpl.
  - by intros ?%elem_of_nil.
  - intros [->|Hin]%elem_of_cons.
    + rewrite key_eqb_refl. by eexists.
    + destruct (key_eqb k0 k); [by eexists|by apply IH].
Qed.


(** ** The merge loop *)

Lemma setattr_plain n v self :
  data_descriptor n = None ->
  setattr (VStr n) v self = Return tt (dict_set (KStr n) v self).
Proof. intros Hn. unfold setattr. by rewrite Hn. Qed.

Lemma plain_elem d k :
  plain d = true -> k ∈ dict_keys d -> data_descriptor (attr_name k) = None.
Proof.
  unfold plain. rewrite forallb_forall. intros Hall Hin.
  apply list_elem_of_In, Hall in Hin. by apply bool_decide_eq_true in Hin.
Qed.

Lemma for_each_plain d ks self :
  (forall k, k ∈ ks -> k ∈ dict_keys d /\ data_descriptor (attr_name k) = None) ->
  for_each ks (fun key =>
    let name := _clean_name (strip (str key)) in
    if is_empty name then ret tt
    else value <- getitem d key ;; setattr (VStr name) value) self
  = Return tt (foldl (assign d) self ks).
Proof.
  revert self. induction ks as [|k ks IH]; intros self Hks; simpl; [done|].
  destruct (Hks k) as [Hin Hplain]; [apply elem_of_cons; by left|].
  assert (Hrest : forall k', k' ∈ ks ->
            k' ∈ dict_keys d /\ data_descriptor (attr_name k') = None).
  { intros k' Hk'. apply Hks, elem_of_cons. by right. }
  unfold bind at 1. unfold assign at 2. fold (attr_name k).
  destruct (is_empty (attr_name k)) eqn:Hempty.
  - unfold ret at 1. by apply IH.
  - destruct (dict_get_keys k d Hin) as [v Hv].
    unfold bind at 1, getitem. rewrite Hv. unfold ret at 1.
    rewrite (setattr_plain _ _ _ Hplain). by apply IH.
Qed.

(** On a mapping that stores nothing under a data descriptor the loop runs
    to its end, one assignment per key whose name is not empty, and the
    call returns [True]. *)
Lemma update_from_dict_plain d self :
  plain d = true ->
  update_from_dict (VDict d) self = Return true (merge d self).
Proof.
  intros Hplain.
  assert (Hloop := for_each_plain d (dict_keys d) self).
  unfold update_from_dict, bind in *. rewrite Hloop; [done|].
  intros k Hk. split; [done|]. by apply (plain_elem d).
Qed.

Lemma update_from_dict_other v self :
  (forall d, v <> VDict d) -> update_from_dict v self = Return false self.
Proof. intros Hv. destruct v; try done. exfalso. by apply (Hv items). Qed.

(** C5. [_clean_name] strips every leading dash, returns what is left when
    all its characters are ASCII letters, digits or one of [_ . : / \], and
    returns the empty string as soon as another character remains; the
    empty string and a string of dashes both give the empty string. *)
Theorem clean_name_characterized :
  (forall s, sanitize_spec s (_clean_name s)) /\
  _clean_name [] = [] /\
  _clean_name (py "---") = [].
Proof.
  split; [|split; reflexivity].
  intros s. destruct (strip_dashes_split s) as [k Hk].
  exists k, (strip_dashes s). split; [exact Hk|].
  split; [apply strip_dashes_no_dash|].
  unfold _clean_name. rewrite findall_nonempty, existsb_forbidden.
  destruct (forallb in_class (strip_dashes s)) eqn:Hall; simpl.
  - split; [done|]. intros (c & Hin & Hno).
    rewrite forallb_forall in Hall. exfalso. apply Hno, in_class_allowed, Hall.
    by apply list_elem_of_In.
  - split; [|done]. intros Hok.
    assert (forallb in_class (strip_dashes s) = true); [|congruence].
    apply forallb_forall. intros c Hin. apply in_class_allowed, Hok.
    by apply list_elem_of_In.
Qed.

(** ** The merge loop keeps the invariant *)






(** ** Reading a file *)

Section Files.

Variable fs : pystr -> file.

Lemma load_json_no_file path self :
  path = [] \/ fs path = NoFile ->
  load_json fs (VStr path) self = Return false self.
Proof.
  unfold load_json, isfile. intros [->|Hno]; [done|].
  rewrite Hno. by rewrite andb_false_r.
Qed.

Lemma load_json_parsed path data self :
  path <> [] -> fs path = Json data ->
  load_json fs (VStr path) self =
  match update_from_dict data self with
  | Return _ self' => Return true self'
  | Raise e self' => Raise e self'
  end.
Proof.
  intros Hpath Hfile. unfold load_json, isfile, json_load.
  rewrite Hfile. destruct path; [done|]. simpl.
  unfold try_except, bind, ret. simpl.
  by destruct (update_from_dict data self).
Qed.

Lemma load_json_unreadable path self :
  path <> [] -> fs path = Unreadable ->
  load_json fs (VStr path) self =
  match getattr (VStr (py "log")) self with
  | Return _ _ => Return false self
  | Raise e _ => Raise e self
  end.
Proof.
  intros Hpath Hfile. destruct path as [|c path]; [done|].
  assert (Hsame : forall o, getattr (VStr (py "log")) self = o -> final o = self).
  { intros o <-. unfold getattr. simpl. by repeat case_match. }
  unfold load_json, isfile, json_load. rewrite Hfile.
  cbn [negb is_empty andb].
  unfold try_except, bind, raise, ret, print_log, bind, ret.
  destruct (getattr (VStr (py "log")) self) eqn:Hlog;
    specialize (Hsame _ eq_refl); simpl in Hsame; by subst.
Qed.



End Files.

(** ** Sequencing *)



(** ** Construction *)




Section Construction.

Variable fs : pystr -> file.



(** The handler of [load_json] reads [self.log]; during construction
    that attribute does not exist yet unless the default mapping stored
    one. *)
Lemma init_unreadable_raises path :
  path <> [] -> fs path = Unreadable ->
  Config fs VNone (VStr path) = Raise AttributeError [].
Proof.
  intros Hpath Hfile. unfold Config, __init__, bind, ret.
  by rewrite load_json_unreadable.
Qed.

(** Construction completes when the sources store nothing under a data
    descriptor and the file, if one is named, is missing or parses. *)
Lemma construct_completes default json_file :
  plain_value default = true -> plain_path fs json_file = true ->
  (forall p, json_file = VStr p -> fs p <> Unreadable) ->
  exists st, Config fs default json_file = Return tt st.
Proof.
  intros Hd Hj Hread. unfold Config, __init__.
  assert (H1 : exists s1,
            (match default with
             | VDict _ => update_from_dict default ;;; ret tt
             | _ => ret tt
             end) [] = Return tt s1).
  { destruct default; try (by eexists).
    unfold bind. rewrite update_from_dict_plain by done. by eexists. }
  destruct H1 as [s1 H1]. unfold bind at 1. rewrite H1.
  assert (H2 : exists s2,
            (match json_file with
             | VStr _ => load_json fs json_file ;;; ret tt
             | _ => ret tt
             end) s1 = Return tt s2).
  { destruct json_file as [| | |path| | |]; try (by eexists).
    unfold bind. simpl in Hj.
    destruct path as [|c path]; [by eexists|].
    destruct (fs (c :: path)) as [| |data] eqn:Hfile.
    - rewrite load_json_no_file by (by right). by eexists.
    - by destruct (Hread (c :: path)).
    - rewrite (load_json_parsed fs _ data) by done.
      destruct data; try (by eexists).
      rewrite update_from_dict_plain by done. by eexists. }
  destruct H2 as [s2 H2]. unfold bind at 1. rewrite H2.
  rewrite setattr_plain by done. by eexists.
Qed.

(** [load_json] drops the result of [update_from_dict]. *)
Lemma load_json_not_mapping path data self :
  path <> [] -> fs path = Json data -> (forall d, data <> VDict d) ->
  load_json fs (VStr path) self = Return true self.
Proof.
  intros Hpath Hfile Hdata. rewrite (load_json_parsed fs path data) by done.
  by rewrite update_from_dict_other.
Qed.

End Construction.

(** ** Construction and loading: the claims *)

(** C1 (the code departs from the claim).  Constructing a store with no
    default mapping and the path of an existing file that cannot be read or
    parsed does not complete: the handler of [load_json] prints [self.log],
    which [__init__] assigns only in its last statement, so an
    [AttributeError] leaves the handler and reaches the caller. *)
Theorem construct_unparsable_file_raises :
  Config example_files VNone (VStr (py "broken.json")) = Raise AttributeError [].
Proof. by apply init_unreadable_raises. Qed.

(** C2 (the code departs from the claim).  On a file that holds the JSON
    array [[1,2,3]], [load_json] returns [True]: [update_from_dict] rejects
    the array and returns [False], but [load_json] does not look at that
    result.  The store is left as it was. *)
Theorem load_json_array_returns_true :
  update_from_dict (VList [VInt 1; VInt 2; VInt 3]) fresh_store
    = Return false fresh_store /\
  load_json example_files (VStr (py "list.json")) fresh_store
    = Return true fresh_store.
Proof. split; [done|]. by apply (load_json_not_mapping _ _ (VList [VInt 1; VInt 2; VInt 3])). Qed.

(** C3, as stated, fails: the store of [Config()] already holds the
    entry [log], so after [load_json] on a path that names no file (which
    does return [False] and changes nothing) [get_all_params] is not the
    empty mapping. *)
Lemma load_missing_export_not_empty :
  Config no_files VNone VNone = Return tt fresh_store /\
  load_json no_files (VStr (py "missing.json")) fresh_store
    = Return false fresh_store /\
  get_all_params fresh_store <> Return (VDict []) fresh_store.
Proof.
  split; [reflexivity|]. split; [by apply load_json_no_file; right|].
  unfold get_all_params, fresh_store. congruence.
Qed.

(** C3, amended.  On a store constructed with no default mapping and no
    JSON file, [load_json] on a path that is empty or names no regular file
    returns [False] and leaves the store as it was, and [get_all_params]
    then returns the mapping whose only entry is [log], the prefix
    ['[Config] '] that construction stores. *)
Theorem load_missing_file_keeps_fresh_store fs path :
  path = [] \/ fs path = NoFile ->
  Config fs VNone VNone = Return tt fresh_store /\
  load_json fs (VStr path) fresh_store = Return false fresh_store /\
  get_all_params fresh_store
    = Return (VDict [(KStr (py "log"), VStr (py "[Config] "))]) fresh_store.
Proof.
  intros Hpath. split; [reflexivity|].
  split; [by apply load_json_no_file|reflexivity].
Qed.

Lemma load_missing_file_keeps_fresh_store_witness :
  (py "missing.json" = [] \/ example_files (py "missing.json") = NoFile) /\
  load_json example_files (VStr (py "missing.json")) fresh_store
    = Return false fresh_store.
Proof.
  split; [right; reflexivity|].
  apply (load_missing_file_keeps_fresh_store example_files (py "missing.json")).
  right; reflexivity.
Defined.



(** ** Point accessors *)






(** ** The name invariant *)

Section Invariant.

Variable fs : pystr -> file.


End Invariant.




(** ** What a merge leaves under a name *)












(** ** Merge order at construction *)




(** ** Merging a mapping *)

(** C8 (the code departs from the claim).  [update_from_dict] does not
    return [True] for every mapping: a key stored under [__class__] makes
    [setattr] raise [TypeError], and nothing in the loop catches it, so the
    exception reaches the caller, also through [load_json], which merges
    outside its [try] block.  [set_param] guards the same [setattr] call
    with [try]/[except]. *)
Theorem update_from_dict_class_key_raises :
  update_from_dict (VDict [(KStr (py "__class__"), VInt 1)]) fresh_store
    = Raise TypeError fresh_store /\
  load_json example_files (VStr (py "class.json")) fresh_store
    = Raise TypeError fresh_store /\
  set_param (VStr (py "__class__")) (VInt 1) fresh_store
    = Return tt fresh_store.
Proof. repeat split. Qed.

(** ** The exported mapping is a copy *)




(** Had [get_all_params] returned [self.__dict__] itself, a change made by
    the caller would show in the store. *)
Lemma alias_would_leak :
  let h : heap := {[ 1%positive := fresh_store ]} in
  let h' := mutate_at 1%positive h (SetItem (KStr (py "x")) (VInt 1)) in
  fst <$> call 1%positive (has_param (VStr (py "x"))) h
    = Some (Return false fresh_store) /\
  fst <$> call 1%positive (has_param (VStr (py "x"))) h'
    = Some (Return true (dict_set (KStr (py "x")) (VInt 1) fresh_store)).
Proof. split; reflexivity. Qed.



(** * Further properties of the methods *)

(** ** The sanitizer *)

(** X1.  Whatever [_clean_name] returns is a fixed point of it, does not
    begin with a dash and holds allowed characters only; so a name that
    was sanitized once is never changed or rejected by a second pass. *)
Theorem clean_name_output_is_clean s :
  _clean_name (_clean_name s) = _clean_name s /\
  forallb in_class (_clean_name s) = true /\
  (forall r', _clean_name s <> dash :: r').
Proof.
  split; [apply clean_name_idem|].
  unfold _clean_name. rewrite findall_nonempty, existsb_forbidden.
  destruct (forallb in_class (strip_dashes s)) eqn:Hall; simpl.
  - split; [done|]. apply strip_dashes_no_dash.
  - split; done.
Qed.

(** ** Merging *)






(** ** Loading *)







(** ** Point accessors *)














(** ** Construction *)







(** X14.  Arguments of the wrong type are ignored without a word: a
    default that is not a [dict] and a file argument that is not a [str]
    give the same store as [Config()], which holds [log] only. *)
Theorem construct_ignores_other_types fs default json_file :
  (forall d, default <> VDict d) -> is_str json_file = false ->
  Config fs default json_file = Return tt fresh_store.
Proof.
  intros Hd Hj. unfold Config, __init__.
  destruct default; try (by destruct json_file).
  exfalso. by apply (Hd items).
Qed.

Lemma construct_ignores_other_types_witness :
  (forall d, VList [VInt 1] <> VDict d) /\
  is_str (VInt 5) = false /\
  Config example_files (VList [VInt 1]) (VInt 5) = Return tt fresh_store.
Proof.
  split; [discriminate|]. split; [reflexivity|].
  apply construct_ignores_other_types; [discriminate|reflexivity].
Defined.

(** ** A merge that stops half way *)











(** ** Keys that are not strings *)

Lemma lstrip_tame t : forallb tame t = true -> lstrip t = t.
Proof.
  destruct t as [|c t]; simpl; [done|].
  intros [[[_ Hc]%andb_true_iff _]%andb_true_iff _]%andb_true_iff.
  by destruct (isspace c).
Qed.

Lemma forallb_rev {A} (f : A -> bool) l : forallb f (rev l) = forallb f l.
Proof.
  induction l as [|x l IH]; simpl; [done|].
  rewrite forallb_app, IH. simpl. by rewrite andb_true_r, andb_comm.
Qed.

Lemma strip_tame t : forallb tame t = true -> strip t = t.
Proof.
  intros Ht. unfold strip, rstrip. rewrite (lstrip_tame t Ht).
  rewrite lstrip_tame by (by rewrite forallb_rev). apply rev_involutive.
Qed.

Lemma clean_name_tame t :
  forallb tame t = true ->
  _clean_name (strip t) = t /\ _clean_name (strip (dash :: t)) = t.
Proof.
  intros Ht.
  assert (Hclass : forallb in_class t = true).
  { rewrite forallb_forall in *. intros c Hc. specialize (Ht c Hc).
    unfold tame in Ht. by apply andb_true_iff in Ht as [[? _]%andb_true_iff _]. }
  assert (Hdash : strip_dashes t = t).
  { destruct t as [|c t]; simpl in *; [done|].
    apply andb_true_iff in Ht as [[_ Hc]%andb_true_iff _].
    by destruct (c =? dash)%N. }
  assert (Hclean : _clean_name t = t).
  { unfold _clean_name. by rewrite Hdash, findall_nonempty, existsb_forbidden, Hclass. }
  split; [by rewrite strip_tame|].
  assert (Hstrip : strip (dash :: t) = dash :: t).
  { unfold strip, rstrip. change (lstrip (dash :: t)) with (dash :: t).
    simpl rev. destruct (rev t) as [|c r] eqn:Hrev.
    - apply (f_equal (@rev _)) in Hrev. rewrite rev_involutive in Hrev. by subst.
    - assert (Hc : isspace c = false).
      { assert (Hr : forallb tame (c :: r) = true)
          by (by rewrite <- Hrev, forallb_rev).
        simpl in Hr. unfold tame in Hr.
        apply andb_true_iff in Hr as [[[_ Hc]%andb_true_iff _]%andb_true_iff _].
        by destruct (isspace c). }
      simpl. rewrite Hc. simpl. rewrite rev_app_distr. simpl.
      apply (f_equal (@rev _)) in Hrev. rewrite rev_involutive in Hrev.
      simpl in Hrev. by rewrite Hrev. }
  rewrite Hstrip. unfold _clean_name. simpl strip_dashes.
  change (strip_dashes t) with (strip_dashes t). fold (_clean_name t). exact Hclean.
Qed.





Lemma in_class_tame c : in_class c = true -> tame c = true.
Proof.
  intros Hc.
  assert (Hlt : (c < 123)%N).
  { unfold in_class in Hc.
    rewrite !orb_true_iff, !andb_true_iff, !N.leb_le, !N.eqb_eq in Hc. lia. }
  assert (Hall : forallb (fun n => implb (in_class n) (tame n))
                   (map N.of_nat (seq 0 123)) = true) by (vm_compute; reflexivity).
  rewrite forallb_forall in Hall.
  assert (Hin : In c (map N.of_nat (seq 0 123))).
  { apply in_map_iff. exists (N.to_nat c). split; [lia|]. apply in_seq. lia. }
  specialize (Hall c Hin). by rewrite Hc in Hall.
Qed.

Lemma forallb_in_class_tame t : forallb in_class t = true -> forallb tame t = true.
Proof.
  rewrite !forallb_forall. intros Ht c Hc. by apply in_class_tame, Ht.
Qed.

Lemma lstrip_spaces ws r : forallb isspace ws = true -> lstrip (ws ++ r) = lstrip r.
Proof.
  induction ws as [|c ws IH]; simpl; [done|].
  intros [Hc Hws]%andb_true_iff. rewrite Hc. by apply IH.
Qed.

Lemma lstrip_tame_app t r :
  forallb tame t = true -> forallb isspace r = true ->
  lstrip (t ++ r) = match t with [] => [] | _ => t ++ r end.
Proof.
  intros Ht Hr. destruct t as [|c t]; simpl.
  - rewrite <- (app_nil_r r). by rewrite lstrip_spaces.
  - simpl in Ht. unfold tame at 1 in Ht.
    apply andb_true_iff in Ht as [[[_ Hc]%andb_true_iff _]%andb_true_iff _].
    by destruct (isspace c).
Qed.

Lemma strip_surrounded ws1 t ws2 :
  forallb isspace ws1 = true -> forallb isspace ws2 = true ->
  forallb tame t = true -> strip (ws1 ++ t ++ ws2) = t.
Proof.
  intros H1 H2 Ht. unfold strip, rstrip.
  rewrite lstrip_spaces, lstrip_tame_app by done.
  destruct t as [|c t]; [done|].
  rewrite rev_app_distr, lstrip_spaces by (by rewrite forallb_rev).
  rewrite lstrip_tame by (by rewrite forallb_rev). apply rev_involutive.
Qed.

(** X18.  White space around a key does not count: a string key made of
    allowed characters with any white space before and after it is stored
    under the name without the white space. *)
Theorem surrounding_space_is_trimmed ws1 t ws2 :
  forallb isspace ws1 = true -> forallb isspace ws2 = true ->
  forallb in_class t = true ->
  _clean_name (strip (str (KStr (ws1 ++ t ++ ws2)))) = t.
Proof.
  intros H1 H2 Ht%forallb_in_class_tame. simpl str.
  rewrite strip_surrounded by done.
  destruct (clean_name_tame t Ht) as [Hclean _]. by rewrite strip_tame in Hclean.
Qed.

Lemma surrounding_space_is_trimmed_witness :
  forallb isspace (py " ") = true /\ forallb isspace [9%N; 10%N] = true /\
  forallb in_class (py "data.path") = true /\
  _clean_name (strip (str (KStr (py " " ++ py "data.path" ++ [9%N; 10%N]))))
    = py "data.path".
Proof.
  split; [reflexivity|]. split; [reflexivity|]. split; [reflexivity|].
  apply surrounding_space_is_trimmed; reflexivity.
Defined.
